(** * Guardian-Bot: the chat page's session engine

    Shallow embedding of [src/pages/ChatSupport.tsx]: the React component
    [ChatSupport], its mount/locale effect and its event handlers
    ([handleSubmit], [shareLocation], [toggleVoiceInput], the recognition
    callbacks), followed by the properties of the session engine.

    The component is event driven.  Every handler is embedded as a
    computation in a small state-and-exception monad over a [World] that
    holds the component's hook state together with the collaborators the
    handlers talk to (chat storage, toasts, the dialogue backend, the speech
    and geolocation services).  A handler reads the values captured by the
    render that created it ([Render]) and writes through the hook setters,
    exactly as the closures of the source do. *)

From Stdlib Require Import List String Ascii NArith ZArith Arith Bool Lia.
From Stdlib Require DecimalString.
Import ListNotations.

(** ** JavaScript strings

    A JS string is a sequence of UTF-16 code units.  [trim] removes the
    ECMAScript WhiteSpace and LineTerminator code units from both ends. *)

Definition jsstring := list N.

Definition js (s : string) : jsstring :=
  map N_of_ascii (list_ascii_of_string s).

Definition isWhiteSpace (c : N) : bool :=
  (((9 <=? c) && (c <=? 13))          (* TAB, LF, VT, FF, CR *)
  || (c =? 32) || (c =? 160)         (* SP, NBSP *)
  || (c =? 5760)                     (* U+1680 *)
  || ((8192 <=? c) && (c <=? 8202))  (* U+2000 .. U+200A *)
  || (c =? 8232) || (c =? 8233)      (* LS, PS *)
  || (c =? 8239) || (c =? 8287)      (* U+202F, U+205F *)
  || (c =? 12288) || (c =? 65279)    (* U+3000, U+FEFF *))%N.

Fixpoint trimStart (s : jsstring) : jsstring :=
  match s with
  | c :: s' => if isWhiteSpace c then trimStart s' else s
  | [] => []
  end.

Definition trimEnd (s : jsstring) : jsstring := rev (trimStart (rev s)).

Definition trim (s : jsstring) : jsstring := trimEnd (trimStart s).

(** ToBoolean on a string: only the empty string is falsy. *)
Definition truthy (s : jsstring) : bool :=
  match s with [] => false | _ :: _ => true end.

Fixpoint jsstring_eqb (a b : jsstring) : bool :=
  match a, b with
  | [], [] => true
  | x :: a', y :: b' => (x =? y)%N && jsstring_eqb a' b'
  | _, _ => false
  end.

(** [String.prototype.includes], as a proposition. *)
Definition includes (s sub : jsstring) : Prop :=
  exists pre post, s = pre ++ sub ++ post.

Example trim_inner_blanks_stay :
  trim (js "  help, fire nearby  ") = js "help, fire nearby".
Proof. reflexivity. Qed.

Example trim_of_blanks : trim [32%N; 9%N; 10%N; 160%N; 8232%N] = [].
Proof. reflexivity. Qed.

(** ** Messages *)

Inductive Role := system | user | assistant.

(** A chat message as the component builds and stores it. *)
Record Message := {
  role : Role;
  content : jsstring;
  created_at : jsstring
}.

(** The [{ role, content }] objects sent to the dialogue backend. *)
Record ApiMessage := {
  api_role : Role;
  api_content : jsstring
}.

Definition SYSTEM_PROMPT : jsstring := js
"You are GuardianBot, an AI emergency response assistant. Your role is to:
1. Help people report emergencies and incidents
2. Provide immediate safety guidance
3. Collect relevant information (location, situation details)
4. Offer emotional support
5. Guide users through the emergency response process

Always maintain a calm, professional tone. For serious emergencies, emphasize the importance of contacting emergency services first.".

(** [msg => ({ role: msg.role, content: msg.content })] *)
Definition strip (msg : Message) : ApiMessage :=
  {| api_role := role msg; api_content := content msg |}.

(** ** Collaborators *)

Inductive Toast :=
| toast_error_of (text : jsstring)
| toast_success_of (text : jsstring).

(** The object built by [new window.webkitSpeechRecognition()]. *)
Record SpeechRecognition := {
  continuous : bool;
  interimResults : bool;
  lang : jsstring
}.

Inductive RecognitionCall :=
| rec_start (r : SpeechRecognition)
| rec_stop (r : SpeechRecognition).

(** A [SpeechSynthesisUtterance] handed to [speechSynthesis.speak]. *)
Record Utterance := {
  utter_text : jsstring;
  utter_lang : jsstring
}.

(** What the page can find on [window] and [navigator]. *)
Record Platform := {
  has_webkitSpeechRecognition : bool;
  has_speechSynthesis : bool;
  has_geolocation : bool
}.

(** How an awaited promise settles.  The resolved value of
    [sendChatMessage] is a string or nothing ([None] for undefined/null). *)
Inductive Settled (A : Type) :=
| resolved (v : A)
| rejected.
Arguments resolved {A} v.
Arguments rejected {A}.

Section ChatSupport.

(** JS numbers enter the page only as geolocation coordinates and leave it
    only through template-literal interpolation: they stay abstract, with
    their Number-to-String conversion. *)
Variable number : Type.
Variable Number_toString : number -> jsstring.

(** [t] of react-i18next: language, key, translated text. *)
Variable t : jsstring -> jsstring -> jsstring.

Variable window : Platform.

Record Location := { lat : number; lng : number }.

(** [position.coords] *)
Record Coords := { latitude : number; longitude : number }.

(** ** The world

    [Render] is the hook state of the component: what one render captures
    in the closures of its handlers. *)
Record Render := {
  messages : list Message;
  input : jsstring;
  isTyping : bool;
  location : option Location;
  isRecording : bool;
  recognition : option SpeechRecognition
}.

(** Everything outside the component that the handlers read or write. *)
Record Outside := {
  language : jsstring;                      (* i18n.language *)
  chatStore : list Message;                 (* behind ../lib/storage *)
  toasts : list Toast;                      (* react-hot-toast, oldest first *)
  backendCalls : list (list ApiMessage);    (* arguments of sendChatMessage *)
  inflight : nat;                           (* backend promises not settled *)
  spoken : list Utterance;                  (* speechSynthesis.speak *)
  recognitionCalls : list RecognitionCall;  (* start() / stop() *)
  positionRequests : nat                    (* getCurrentPosition pending *)
}.

Record World := { hooks : Render; outside : Outside }.

(** ** The handler monad: state plus exceptions *)

Inductive Completion (A : Type) :=
| Normal (a : A)
| Throw.
Arguments Normal {A} a.
Arguments Throw {A}.

Definition M (A : Type) : Type := World -> Completion A * World.

Definition ret {A} (a : A) : M A := fun w => (Normal a, w).

Definition bind {A B} (m : M A) (k : A -> M B) : M B :=
  fun w => match m w with
           | (Normal a, w') => k a w'
           | (Throw, w') => (Throw, w')
           end.

Definition throw {A} : M A := fun w => (Throw, w).

(** [try { body } catch (error) { handler }] *)
Definition try_catch {A} (body handler : M A) : M A :=
  fun w => match body w with
           | (Normal a, w') => (Normal a, w')
           | (Throw, w') => handler w'
           end.

(** [try { body } finally { cleanup }] *)
Definition try_finally {A} (body : M A) (cleanup : M unit) : M A :=
  fun w => match body w with
           | (c, w') => match cleanup w' with
                        | (Normal _, w'') => (c, w'')
                        | (Throw, w'') => (Throw, w'')
                        end
           end.

Definition modify_hooks (f : Render -> Render) : M unit :=
  fun w => (Normal tt, {| hooks := f (hooks w); outside := outside w |}).

Definition modify_outside (f : Outside -> Outside) : M unit :=
  fun w => (Normal tt, {| hooks := hooks w; outside := f (outside w) |}).

Definition gets {A} (f : World -> A) : M A := fun w => (Normal (f w), w).

Definition exec {A} (m : M A) (w : World) : World := snd (m w).

Notation "x <- m ;; k" := (bind m (fun x => k))
  (at level 61, m at next level, right associativity).
Notation "m ;; k" := (bind m (fun _ => k))
  (at level 61, right associativity).

(** *** Hook setters ([useState]), in updater form *)

Definition setMessages (f : list Message -> list Message) : M unit :=
  modify_hooks (fun h =>
    {| messages := f (messages h); input := input h; isTyping := isTyping h;
       location := location h; isRecording := isRecording h;
       recognition := recognition h |}).

Definition setInput (v : jsstring) : M unit :=
  modify_hooks (fun h =>
    {| messages := messages h; input := v; isTyping := isTyping h;
       location := location h; isRecording := isRecording h;
       recognition := recognition h |}).

Definition setIsTyping (v : bool) : M unit :=
  modify_hooks (fun h =>
    {| messages := messages h; input := input h; isTyping := v;
       location := location h; isRecording := isRecording h;
       recognition := recognition h |}).

Definition setLocation (v : option Location) : M unit :=
  modify_hooks (fun h =>
    {| messages := messages h; input := input h; isTyping := isTyping h;
       location := v; isRecording := isRecording h;
       recognition := recognition h |}).

Definition setIsRecording (v : bool) : M unit :=
  modify_hooks (fun h =>
    {| messages := messages h; input := input h; isTyping := isTyping h;
       location := location h; isRecording := v;
       recognition := recognition h |}).

Definition setRecognition (v : option SpeechRecognition) : M unit :=
  modify_hooks (fun h =>
    {| messages := messages h; input := input h; isTyping := isTyping h;
       location := location h; isRecording := isRecording h;
       recognition := v |}).

(** *** Collaborators *)

(** Modelled from the spec: [storage.getChatMessages] of [../lib/storage],
    which is not part of the sources at hand.  The spec's [load()] "returns
    the persisted ordered sequence of Messages for the current profile, or
    an empty sequence if none exists" and must not fail. *)
Definition storage_getChatMessages : M (list Message) :=
  gets (fun w => chatStore (outside w)).

(** Modelled from the spec: [storage.saveChatMessage] of [../lib/storage].
    The spec's [append(message)] "durably records one Message after all
    previously recorded ones". *)
Definition storage_saveChatMessage (m : Message) : M unit :=
  modify_outside (fun o =>
    {| language := language o; chatStore := chatStore o ++ [m];
       toasts := toasts o; backendCalls := backendCalls o;
       inflight := inflight o; spoken := spoken o;
       recognitionCalls := recognitionCalls o;
       positionRequests := positionRequests o |}).

Definition toast (x : Toast) : M unit :=
  modify_outside (fun o =>
    {| language := language o; chatStore := chatStore o;
       toasts := toasts o ++ [x]; backendCalls := backendCalls o;
       inflight := inflight o; spoken := spoken o;
       recognitionCalls := recognitionCalls o;
       positionRequests := positionRequests o |}).

Definition toast_error (text : jsstring) : M unit := toast (toast_error_of text).
Definition toast_success (text : jsstring) : M unit := toast (toast_success_of text).

(** The call [sendChatMessage(apiMessages)] of [../lib/api]: the request
    leaves the page and a promise is now in flight.  How the promise
    settles is an input of the continuation ([handleSubmit_resume]). *)
Definition sendChatMessage (apiMessages : list ApiMessage) : M unit :=
  modify_outside (fun o =>
    {| language := language o; chatStore := chatStore o;
       toasts := toasts o; backendCalls := backendCalls o ++ [apiMessages];
       inflight := S (inflight o); spoken := spoken o;
       recognitionCalls := recognitionCalls o;
       positionRequests := positionRequests o |}).

Definition promise_settled : M unit :=
  modify_outside (fun o =>
    {| language := language o; chatStore := chatStore o;
       toasts := toasts o; backendCalls := backendCalls o;
       inflight := pred (inflight o); spoken := spoken o;
       recognitionCalls := recognitionCalls o;
       positionRequests := positionRequests o |}).

(** [await p]: the value of a resolved promise, a throw for a rejected one. *)
Definition await {A} (p : Settled A) : M A :=
  match p with
  | resolved v => ret v
  | rejected => throw
  end.

Definition speechSynthesis_speak (u : Utterance) : M unit :=
  modify_outside (fun o =>
    {| language := language o; chatStore := chatStore o;
       toasts := toasts o; backendCalls := backendCalls o;
       inflight := inflight o; spoken := spoken o ++ [u];
       recognitionCalls := recognitionCalls o;
       positionRequests := positionRequests o |}).

Definition recognition_call (c : RecognitionCall) : M unit :=
  modify_outside (fun o =>
    {| language := language o; chatStore := chatStore o;
       toasts := toasts o; backendCalls := backendCalls o;
       inflight := inflight o; spoken := spoken o;
       recognitionCalls := recognitionCalls o ++ [c];
       positionRequests := positionRequests o |}).

Definition set_positionRequests (f : nat -> nat) : M unit :=
  modify_outside (fun o =>
    {| language := language o; chatStore := chatStore o;
       toasts := toasts o; backendCalls := backendCalls o;
       inflight := inflight o; spoken := spoken o;
       recognitionCalls := recognitionCalls o;
       positionRequests := f (positionRequests o) |}).

(** [navigator.geolocation.getCurrentPosition(success, error)]: the two
    callbacks are [shareLocation_success] and [shareLocation_error]. *)
Definition geolocation_getCurrentPosition : M unit := set_positionRequests S.

Definition i18n_language : M jsstring := gets (fun w => language (outside w)).

Definition i18n_changeLanguage (code : jsstring) : M unit :=
  modify_outside (fun o =>
    {| language := code; chatStore := chatStore o;
       toasts := toasts o; backendCalls := backendCalls o;
       inflight := inflight o; spoken := spoken o;
       recognitionCalls := recognitionCalls o;
       positionRequests := positionRequests o |}).

(** ** The component *)

(** The effect of lines 35-73, run on mount and whenever [i18n.language]
    changes.  [now] is [new Date().toISOString()]. *)
Definition initialize (now : jsstring) : M unit :=
  (if has_webkitSpeechRecognition window then
     code <- i18n_language ;;
     setRecognition
       (Some {| continuous := false; interimResults := false; lang := code |})
   else ret tt) ;;
  savedMessages <- storage_getChatMessages ;;
  if (List.length savedMessages =? 0)%nat then
    code <- i18n_language ;;
    let initialMessage :=
      {| role := assistant;
         content := t code (js "chat.initialMessage");
         created_at := now |} in
    storage_saveChatMessage initialMessage ;;
    setMessages (fun _ => [initialMessage])
  else
    setMessages (fun _ => savedMessages).

(** *** Recognition callbacks *)

Definition recognition_onresult (transcript : jsstring) : M unit :=
  setInput transcript.

Definition recognition_onerror : M unit := setIsRecording false.

Definition recognition_onend : M unit := setIsRecording false.

(** *** [toggleVoiceInput] *)
Definition toggleVoiceInput (c : Render) : M unit :=
  match recognition c with
  | None =>
      toast_error (js "Speech recognition is not supported in your browser")
  | Some r =>
      if isRecording c then
        recognition_call (rec_stop r)
      else
        recognition_call (rec_start r) ;;
        setIsRecording true
  end.

(** *** [speakMessage] *)
Definition speakMessage (text : jsstring) : M unit :=
  if has_speechSynthesis window then
    code <- i18n_language ;;
    speechSynthesis_speak {| utter_text := text; utter_lang := code |}
  else ret tt.

(** *** [handleSubmit], up to its [await]

    [c] holds the [input] and [messages] of the render whose form was
    submitted; [e.preventDefault()] touches nothing the page keeps.
    [apiMessages_of] is the array literal of lines 120-124. *)
Definition apiMessages_of (c : Render) : list ApiMessage :=
  [ {| api_role := system; api_content := SYSTEM_PROMPT |} ]
  ++ map strip (messages c)
  ++ [ {| api_role := user; api_content := input c |} ].

Definition handleSubmit (c : Render) (now : jsstring) : M unit :=
  if negb (truthy (trim (input c))) then ret tt
  else
    let userMessage :=
      {| content := input c; role := user; created_at := now |} in
    setMessages (fun prev => prev ++ [userMessage]) ;;
    storage_saveChatMessage userMessage ;;
    setInput [] ;;
    setIsTyping true ;;
    let apiMessages := apiMessages_of c in
    sendChatMessage apiMessages.

(** *** [handleSubmit], from its [await] on

    The [try] body once the promise has settled, [catch] and [finally]. *)
Definition handleSubmit_resume
    (settled : Settled (option jsstring)) (now : jsstring) : M unit :=
  try_finally
    (try_catch
       (response <- await settled ;;
        match response with          (* if (response): a non-empty string *)
        | Some ((_ :: _) as reply) =>
            let botResponse :=
              {| content := reply; role := assistant; created_at := now |} in
            setMessages (fun prev => prev ++ [botResponse]) ;;
            storage_saveChatMessage botResponse ;;
            speakMessage reply
        | _ => ret tt
        end)
       (toast_error (js "Failed to get response. Please try again.")))
    (setIsTyping false).

(** The [disabled] attribute of the submit button (line 296). *)
Definition submit_disabled (c : Render) : bool :=
  negb (truthy (trim (input c))) || isTyping c.

(** *** [shareLocation] and the two callbacks it registers *)

(** U+1F4CD, the pin, as its surrogate pair. *)
Definition pin : jsstring := [55357%N; 56525%N].

Definition shareLocation : M unit :=
  if has_geolocation window then geolocation_getCurrentPosition
  else ret tt.

Definition shareLocation_success (position : Coords) (now : jsstring) : M unit :=
  let newLocation :=
    {| lat := latitude position; lng := longitude position |} in
  setLocation (Some newLocation) ;;
  let locationMessage :=
    {| role := user;
       content := pin ++ js " Location shared: "
                  ++ Number_toString (lat newLocation)
                  ++ js ", " ++ Number_toString (lng newLocation);
       created_at := now |} in
  setMessages (fun prev => prev ++ [locationMessage]) ;;
  storage_saveChatMessage locationMessage ;;
  toast_success (js "Location shared successfully").

Definition shareLocation_error : M unit :=
  toast_error (js "Could not get your location").

(** ** Events

    What can happen to a mounted page.  Timestamps are supplied by the
    clock at the moment of the event. *)
Inductive Event :=
| LanguageSelected (code now : jsstring)       (* the <select> of line 183 *)
| InputChanged (value : jsstring)              (* the text field *)
| FormSubmitted (now : jsstring)
| BackendSettled (settled : Settled (option jsstring)) (now : jsstring)
| ShareLocationClicked
| PositionFound (position : Coords) (now : jsstring)
| PositionFailed
| VoiceClicked
| RecognitionResult (transcript : jsstring)
| RecognitionError
| RecognitionEnd.

(** A callback of a promise or of a position request only runs when such
    a request is outstanding.  The effect only re-runs when its dependency
    [i18n.language] changed.  Recognition callbacks and [handleSubmit] are
    let run in every state.

    An event is handled by the handlers of the latest render: [step] hands
    them [hooks w] as the values they captured, which is what happens when
    the page re-renders between two events, as it does between any two
    actions of a user.  A handler that runs again before the page
    re-rendered still holds the older values; such a run is written with
    the handler applied to the older [Render] and to the current world. *)
Definition step (e : Event) (w : World) : World :=
  match e with
  | LanguageSelected code now =>
      if jsstring_eqb code (language (outside w)) then w
      else exec (i18n_changeLanguage code ;; initialize now) w
  | InputChanged value => exec (setInput value) w
  | FormSubmitted now => exec (handleSubmit (hooks w) now) w
  | BackendSettled settled now =>
      match inflight (outside w) with
      | O => w
      | S _ => exec (promise_settled ;; handleSubmit_resume settled now) w
      end
  | ShareLocationClicked => exec shareLocation w
  | PositionFound position now =>
      match positionRequests (outside w) with
      | O => w
      | S _ => exec (set_positionRequests pred ;;
                     shareLocation_success position now) w
      end
  | PositionFailed =>
      match positionRequests (outside w) with
      | O => w
      | S _ => exec (set_positionRequests pred ;; shareLocation_error) w
      end
  | VoiceClicked => exec (toggleVoiceInput (hooks w)) w
  | RecognitionResult transcript => exec (recognition_onresult transcript) w
  | RecognitionError => exec recognition_onerror w
  | RecognitionEnd => exec recognition_onend w
  end.

Definition run (es : list Event) (w : World) : World :=
  fold_left (fun w e => step e w) es w.

(** The page before its first effect: the initial values of the hooks over
    whatever the store holds. *)
Definition pristine (store : list Message) (code : jsstring) : World :=
  {| hooks := {| messages := []; input := []; isTyping := false;
                 location := None; isRecording := false;
                 recognition := None |};
     outside := {| language := code; chatStore := store; toasts := [];
                   backendCalls := []; inflight := 0; spoken := [];
                   recognitionCalls := []; positionRequests := 0 |} |}.

(** Mounting runs the effect once. *)
Definition mount (store : list Message) (code now : jsstring) : World :=
  exec (initialize now) (pristine store code).

(** * Properties *)

(** ** Vocabulary *)

(** ToBoolean of what [sendChatMessage] resolved to. *)
Definition reply_truthy (response : option jsstring) : bool :=
  match response with
  | Some s => truthy s
  | None => false
  end.

(** The toast of the [catch] branch. *)
Definition failed_toast : Toast :=
  toast_error_of (js "Failed to get response. Please try again.").

(** The text of a location message. *)
Definition location_text (position : Coords) : jsstring :=
  pin ++ js " Location shared: " ++ Number_toString (latitude position)
  ++ js ", " ++ Number_toString (longitude position).

(** No message of the list has the system role. *)
Definition no_system (l : list Message) : Prop :=
  Forall (fun m => role m <> system) l.

(** A request: the system prompt first, no system message after it. *)
Definition request_ok (req : list ApiMessage) : Prop :=
  exists body,
    req = {| api_role := system; api_content := SYSTEM_PROMPT |} :: body /\
    Forall (fun a => api_role a <> system) body.

(** Session and store hold the same messages. *)
Definition in_sync (w : World) : Prop :=
  messages (hooks w) = chatStore (outside w).

(** From its mount on, the page shows what the store holds, and the
    store is not empty. *)
Definition live (w : World) : Prop :=
  in_sync w /\ chatStore (outside w) <> [].

(** No system message in the session or in the store; every request sent
    so far has the shape of [request_ok]. *)
Definition clean (w : World) : Prop :=
  no_system (messages (hooks w)) /\
  no_system (chatStore (outside w)) /\
  Forall request_ok (backendCalls (outside w)).

(** A disabled submit button submits nothing; every other event can come
    at any time. *)
Definition offered (e : Event) (w : World) : bool :=
  match e with
  | FormSubmitted _ => negb (submit_disabled (hooks w))
  | _ => true
  end.

(** A run in which the form is only submitted while its button is
    enabled. *)
Fixpoint ui_run (es : list Event) (w : World) : option World :=
  match es with
  | [] => Some w
  | e :: es' => if offered e w then ui_run es' (step e w) else None
  end.

(** One request in flight while [isTyping] is set, none otherwise. *)
Definition one_at_a_time (w : World) : Prop :=
  inflight (outside w) = if isTyping (hooks w) then 1 else 0.

(** The events that are a submission of the form. *)
Definition is_submit (e : Event) : bool :=
  match e with
  | FormSubmitted _ => true
  | _ => false
  end.

(** The toast of [toggleVoiceInput] in a browser without recognition. *)
Definition unsupported_toast : Toast :=
  toast_error_of (js "Speech recognition is not supported in your browser").

(** The message that [shareLocation] writes for a location. *)
Definition location_message (l : Location) (now : jsstring) : Message :=
  {| role := user;
     content := pin ++ js " Location shared: " ++ Number_toString (lat l)
                ++ js ", " ++ Number_toString (lng l);
     created_at := now |}.

(** The events whose handlers append a message: a submission, a settled
    backend promise, a position. *)
Definition writes (e : Event) : bool :=
  match e with
  | FormSubmitted _ | BackendSettled _ _ | PositionFound _ _ => true
  | _ => false
  end.

(** The location on the map has its message in the store. *)
Definition location_backed (w : World) : Prop :=
  forall l, location (hooks w) = Some l ->
  exists now, In (location_message l now) (chatStore (outside w)).

(** Nothing of the recogniser was ever used. *)
Definition recognition_unused (w : World) : Prop :=
  recognition (hooks w) = None /\
  recognitionCalls (outside w) = [] /\
  isRecording (hooks w) = false.

(** The recognition object the effect builds for a language. *)
Definition recognition_for (code : jsstring) : SpeechRecognition :=
  {| continuous := false; interimResults := false; lang := code |}.

(** ** Proofs *)

Ltac handler :=
  unfold step, exec, handleSubmit, handleSubmit_resume, shareLocation,
    shareLocation_success, shareLocation_error, toggleVoiceInput,
    recognition_onresult, recognition_onerror, recognition_onend,
    speakMessage, initialize, try_finally, try_catch, await, bind, ret,
    throw, gets, promise_settled, sendChatMessage, toast_error,
    toast_success, toast, storage_saveChatMessage, storage_getChatMessages,
    speechSynthesis_speak, recognition_call, geolocation_getCurrentPosition,
    set_positionRequests, i18n_language, i18n_changeLanguage, setMessages,
    setInput, setIsTyping, setLocation, setIsRecording, setRecognition,
    modify_hooks, modify_outside in *.

(** ** Submitting text *)

Lemma handleSubmit_blank (c : Render) (now : jsstring) (w : World) :
  truthy (trim (input c)) = false ->
  handleSubmit c now w = (Normal tt, w).
Proof.
  intros Hblank. unfold handleSubmit. rewrite Hblank. reflexivity.
Qed.

Lemma handleSubmit_accepted (c : Render) (now : jsstring) (w : World) :
  truthy (trim (input c)) = true ->
  let userMessage := {| content := input c; role := user; created_at := now |} in
  exec (handleSubmit c now) w =
  {| hooks := {| messages := messages (hooks w) ++ [userMessage];
                 input := [];
                 isTyping := true;
                 location := location (hooks w);
                 isRecording := isRecording (hooks w);
                 recognition := recognition (hooks w) |};
     outside := {| language := language (outside w);
                   chatStore := chatStore (outside w) ++ [userMessage];
                   toasts := toasts (outside w);
                   backendCalls := backendCalls (outside w) ++ [apiMessages_of c];
                   inflight := S (inflight (outside w));
                   spoken := spoken (outside w);
                   recognitionCalls := recognitionCalls (outside w);
                   positionRequests := positionRequests (outside w) |} |}.
Proof.
  intros Hok. handler. rewrite Hok. reflexivity.
Qed.

(** C7.  A submission whose input trims to the empty string changes
    nothing at all: no message is appended or stored, the pending flag is
    not set, no request goes to the backend. *)
Theorem submit_blank_is_noop (w : World) (now : jsstring) :
  truthy (trim (input (hooks w))) = false ->
  step (FormSubmitted now) w = w.
Proof.
  intros Hblank. unfold step, exec.
  now rewrite handleSubmit_blank.
Qed.

(** C1.  An accepted submission sends exactly one request: the system
    message carrying [SYSTEM_PROMPT], then the session's messages as they
    were before the submission, each cut down to role and content and in
    stored order, then a user message with the submitted text. *)
Theorem submit_request_shape (w : World) (now : jsstring) :
  truthy (trim (input (hooks w))) = true ->
  backendCalls (outside (step (FormSubmitted now) w)) =
    backendCalls (outside w)
    ++ [ {| api_role := system; api_content := SYSTEM_PROMPT |}
         :: map (fun m => {| api_role := role m; api_content := content m |})
                (messages (hooks w))
         ++ [ {| api_role := user; api_content := input (hooks w) |} ] ].
Proof.
  intros Hok. unfold step.
  rewrite (handleSubmit_accepted _ now w Hok). reflexivity.
Qed.

(** ** The backend's answer *)

(** Whatever the promise settles to, [finally] leaves [isTyping] false. *)
Lemma resume_clears_typing settled now (w : World) :
  isTyping (hooks (exec (handleSubmit_resume settled now) w)) = false.
Proof.
  handler. destruct settled as [[[|c s]|]|]; cbn;
    try destruct (has_speechSynthesis window); reflexivity.
Qed.

Lemma resume_rejected now (w : World) :
  exec (handleSubmit_resume rejected now) w =
  exec (toast failed_toast ;; setIsTyping false) w.
Proof. reflexivity. Qed.

Lemma resume_falsy response now (w : World) :
  reply_truthy response = false ->
  exec (handleSubmit_resume (resolved response) now) w =
  exec (setIsTyping false) w.
Proof.
  destruct response as [[|c s]|]; cbn; intros H;
    try discriminate; reflexivity.
Qed.

(** A reply with text is appended, stored and, where the browser can,
    spoken in the current language. *)
Lemma resume_reply (reply : jsstring) (now : jsstring) (w : World) :
  truthy reply = true ->
  let botResponse :=
    {| content := reply; role := assistant; created_at := now |} in
  let w' := exec (handleSubmit_resume (resolved (Some reply)) now) w in
  messages (hooks w') = messages (hooks w) ++ [botResponse] /\
  chatStore (outside w') = chatStore (outside w) ++ [botResponse] /\
  spoken (outside w') =
    spoken (outside w)
    ++ (if has_speechSynthesis window
        then [{| utter_text := reply; utter_lang := language (outside w) |}]
        else []) /\
  toasts (outside w') = toasts (outside w) /\
  isTyping (hooks w') = false.
Proof.
  destruct reply as [|c s]; [discriminate|]. intros _. handler. cbn.
  destruct (has_speechSynthesis window); cbn; rewrite ?app_nil_r;
    repeat split.
Qed.

Lemma settled_clears_typing settled now (w : World) :
  inflight (outside w) <> 0 ->
  isTyping (hooks (step (BackendSettled settled now) w)) = false.
Proof.
  intros Hin. unfold step.
  destruct (inflight (outside w)) eqn:E; [congruence|].
  unfold exec at 1. unfold bind at 1. cbn [promise_settled modify_outside].
  apply resume_clears_typing.
Qed.

(** C2.  When the backend fails, the session holds the earlier messages
    plus the user message of this submission and nothing else, the store
    likewise, the failure toast is shown, and the pending flag is false;
    the flag is false as well when the promise resolves. *)
Theorem backend_failure_keeps_user_message (w : World) (now now' : jsstring) :
  truthy (trim (input (hooks w))) = true ->
  let userMessage :=
    {| content := input (hooks w); role := user; created_at := now |} in
  let w1 := step (FormSubmitted now) w in
  let w2 := step (BackendSettled rejected now') w1 in
  messages (hooks w2) = messages (hooks w) ++ [userMessage] /\
  chatStore (outside w2) = chatStore (outside w) ++ [userMessage] /\
  toasts (outside w2) = toasts (outside w) ++ [failed_toast] /\
  isTyping (hooks w2) = false /\
  (forall settled,
     isTyping (hooks (step (BackendSettled settled now') w1)) = false).
Proof.
  intros Hok userMessage w1 w2.
  assert (E1 : w1 = exec (handleSubmit (hooks w) now) w) by reflexivity.
  rewrite (handleSubmit_accepted _ now w Hok) in E1.
  repeat split; try (subst w2; rewrite E1; reflexivity).
  intros settled. apply settled_clears_typing. rewrite E1. cbn. discriminate.
Qed.

(** C10.  A promise that resolves to nothing or to the empty string: the
    message list, the store, the spoken utterances and the toasts stay as
    they were, no further request is sent, and [isTyping] ends false. *)
Theorem empty_reply_only_clears_pending
    (w : World) (response : option jsstring) (now : jsstring) :
  inflight (outside w) <> 0 ->
  reply_truthy response = false ->
  let w' := step (BackendSettled (resolved response) now) w in
  messages (hooks w') = messages (hooks w) /\
  chatStore (outside w') = chatStore (outside w) /\
  spoken (outside w') = spoken (outside w) /\
  toasts (outside w') = toasts (outside w) /\
  backendCalls (outside w') = backendCalls (outside w) /\
  input (hooks w') = input (hooks w) /\
  location (hooks w') = location (hooks w) /\
  isTyping (hooks w') = false.
Proof.
  intros Hin Hfalsy w'. subst w'. unfold step.
  destruct (inflight (outside w)) eqn:E; [congruence|].
  unfold exec at 1 2 3 4 5 6 7 8. unfold bind at 1 2 3 4 5 6 7 8.
  cbn [promise_settled modify_outside].
  change (snd (handleSubmit_resume (resolved response) now ?x))
    with (exec (handleSubmit_resume (resolved response) now) x).
  rewrite !resume_falsy by assumption.
  repeat split.
Qed.

(** ** Sharing the location *)

Lemma location_text_includes (position : Coords) :
  includes (location_text position) (Number_toString (latitude position)) /\
  includes (location_text position) (Number_toString (longitude position)).
Proof.
  unfold includes, location_text. split.
  - exists (pin ++ js " Location shared: "),
           (js ", " ++ Number_toString (longitude position)).
    now rewrite <- app_assoc.
  - exists (pin ++ js " Location shared: "
            ++ Number_toString (latitude position) ++ js ", "), [].
    rewrite app_nil_r. now rewrite <- !app_assoc.
Qed.

(** C9.  Without [navigator.geolocation] the click does nothing: the
    world, with its messages, location and toasts, is the one before. *)
Theorem share_location_without_geolocation (w : World) :
  has_geolocation window = false ->
  step ShareLocationClicked w = w.
Proof.
  intros Hno. unfold step, exec, shareLocation. now rewrite Hno.
Qed.

(** C4.  With geolocation present, the click only registers the position
    request.  When the position arrives, one user message holding both
    coordinates is appended to the session and to the store, the location
    is recorded and the success toast shown; when the request fails, the
    error toast is shown and session and store stay as they were.  Neither
    path sends anything to the backend. *)
Theorem share_location_outcomes (w : World) (position : Coords) (now : jsstring) :
  has_geolocation window = true ->
  let w0 := step ShareLocationClicked w in
  let ok := step (PositionFound position now) w0 in
  let ko := step PositionFailed w0 in
  (messages (hooks w0) = messages (hooks w) /\
   chatStore (outside w0) = chatStore (outside w) /\
   toasts (outside w0) = toasts (outside w) /\
   backendCalls (outside w0) = backendCalls (outside w)) /\
  (exists m,
     messages (hooks ok) = messages (hooks w) ++ [m] /\
     chatStore (outside ok) = chatStore (outside w) ++ [m] /\
     role m = user /\
     content m =
       pin ++ js " Location shared: "
       ++ Number_toString (latitude position)
       ++ js ", " ++ Number_toString (longitude position) /\
     includes (content m) (Number_toString (latitude position)) /\
     includes (content m) (Number_toString (longitude position)) /\
     location (hooks ok) =
       Some {| lat := latitude position; lng := longitude position |} /\
     toasts (outside ok) =
       toasts (outside w)
       ++ [toast_success_of (js "Location shared successfully")] /\
     backendCalls (outside ok) = backendCalls (outside w) /\
     inflight (outside ok) = inflight (outside w)) /\
  (messages (hooks ko) = messages (hooks w) /\
   chatStore (outside ko) = chatStore (outside w) /\
   location (hooks ko) = location (hooks w) /\
   toasts (outside ko) =
     toasts (outside w) ++ [toast_error_of (js "Could not get your location")] /\
   backendCalls (outside ko) = backendCalls (outside w) /\
   inflight (outside ko) = inflight (outside w)).
Proof.
  intros Hgeo w0 ok ko.
  assert (E0 : w0 = exec geolocation_getCurrentPosition w).
  { subst w0. unfold step, exec, shareLocation. now rewrite Hgeo. }
  split; [subst w0; unfold step, exec, shareLocation;
          rewrite Hgeo; repeat split|].
  split.
  - exists {| role := user; content := location_text position;
              created_at := now |}.
    destruct (location_text_includes position) as [Hlat Hlng].
    subst ok. rewrite E0.
    repeat split; assumption.
  - subst ko. rewrite E0. repeat split.
Qed.

(** ** Voice input *)

(** The click that stops a recording only calls [stop()]: the flag is
    still set afterwards.  It is the recogniser's answer to [stop()], its
    end event, that clears it. *)
Remark stop_click_only_calls_stop (w : World) (r : SpeechRecognition) :
  recognition (hooks w) = Some r ->
  isRecording (hooks w) = true ->
  step VoiceClicked w = exec (recognition_call (rec_stop r)) w.
Proof.
  intros Hr Hrec. unfold step, toggleVoiceInput. now rewrite Hr, Hrec.
Qed.

(** C6, as the page has it.  Start, then stop, with no result event in
    between: the two clicks call [start()] and [stop()] on the recogniser
    and leave input and messages as they were.  The second click does not
    clear [isRecording]: the flag is still set right after it.  It is
    cleared when the end event, or an error event, of the recogniser is
    handled, and the input is then still the one from before the first
    click. *)
Theorem voice_start_then_stop (w : World) (r : SpeechRecognition) :
  recognition (hooks w) = Some r ->
  isRecording (hooks w) = false ->
  let w2 := run [VoiceClicked; VoiceClicked] w in
  let ended := run [VoiceClicked; VoiceClicked; RecognitionEnd] w in
  let failed := run [VoiceClicked; VoiceClicked; RecognitionError] w in
  recognitionCalls (outside w2) =
    recognitionCalls (outside w) ++ [rec_start r; rec_stop r] /\
  input (hooks w2) = input (hooks w) /\
  messages (hooks w2) = messages (hooks w) /\
  isRecording (hooks w2) = true /\
  isRecording (hooks ended) = false /\
  input (hooks ended) = input (hooks w) /\
  messages (hooks ended) = messages (hooks w) /\
  isRecording (hooks failed) = false /\
  input (hooks failed) = input (hooks w).
Proof.
  intros Hr Hrec w2 ended failed. subst w2 ended failed.
  unfold run. cbn [fold_left].
  assert (E1 : step VoiceClicked w =
               exec (recognition_call (rec_start r) ;; setIsRecording true) w).
  { unfold step, toggleVoiceInput. now rewrite Hr, Hrec. }
  rewrite E1.
  rewrite (stop_click_only_calls_stop _ r)
    by (handler; cbn; first [assumption | reflexivity]).
  handler. cbn. rewrite <- app_assoc. repeat split.
Qed.

(** ** Submitting while a reply is pending *)

(** C5, as the page has it.  [handleSubmit] does not look at [isTyping]:
    run while a request is pending it appends the user message and sends
    one more request.  The form, however, does not offer it: the submit
    button is disabled whenever [isTyping] is set. *)
Theorem submit_while_pending (w : World) (now : jsstring) :
  truthy (trim (input (hooks w))) = true ->
  isTyping (hooks w) = true ->
  let userMessage :=
    {| content := input (hooks w); role := user; created_at := now |} in
  let w' := step (FormSubmitted now) w in
  submit_disabled (hooks w) = true /\
  messages (hooks w') = messages (hooks w) ++ [userMessage] /\
  chatStore (outside w') = chatStore (outside w) ++ [userMessage] /\
  backendCalls (outside w') =
    backendCalls (outside w) ++ [apiMessages_of (hooks w)] /\
  inflight (outside w') = S (inflight (outside w)).
Proof.
  intros Hok Hpending userMessage w'. subst w'. unfold step.
  rewrite (handleSubmit_accepted _ now w Hok).
  unfold submit_disabled. rewrite Hpending, orb_true_r.
  repeat split.
Qed.

(** ** What every step writes *)

Lemma initialize_store (now : jsstring) (w : World) :
  let greeting :=
    {| role := assistant;
       content := t (language (outside w)) (js "chat.initialMessage");
       created_at := now |} in
  let w' := exec (initialize now) w in
  chatStore (outside w') =
    match chatStore (outside w) with
    | [] => [greeting]
    | _ :: _ => chatStore (outside w)
    end /\
  messages (hooks w') = chatStore (outside w') /\
  language (outside w') = language (outside w) /\
  toasts (outside w') = toasts (outside w) /\
  backendCalls (outside w') = backendCalls (outside w) /\
  inflight (outside w') = inflight (outside w) /\
  isTyping (hooks w') = isTyping (hooks w).
Proof.
  handler. destruct (has_webkitSpeechRecognition window); cbn;
    destruct (chatStore (outside w)) eqn:E; cbn; rewrite ?E; repeat split.
Qed.

Ltac writes_nothing :=
  exists []; rewrite !app_nil_r;
  split; [reflexivity | split; [constructor | left; reflexivity]].

(** Every step extends the store by messages of role user or assistant,
    and the session either grows by the same messages or is reloaded from
    the store. *)
Lemma step_appends (e : Event) (w : World) :
  exists d,
    chatStore (outside (step e w)) = chatStore (outside w) ++ d /\
    no_system d /\
    (messages (hooks (step e w)) = messages (hooks w) ++ d \/
     messages (hooks (step e w)) = chatStore (outside (step e w))).
Proof.
  destruct e as [code now|value|now|settled now| |position now| | |tr| |].
  - unfold step. destruct (jsstring_eqb code (language (outside w))).
    + writes_nothing.
    + change (exec (i18n_changeLanguage code ;; initialize now) w)
        with (exec (initialize now) (exec (i18n_changeLanguage code) w)).
      pose proof (initialize_store now (exec (i18n_changeLanguage code) w))
        as H.
      cbn zeta in H. destruct H as (Hs & Hm & _).
      change (chatStore (outside (exec (i18n_changeLanguage code) w)))
        with (chatStore (outside w)) in Hs.
      change (language (outside (exec (i18n_changeLanguage code) w)))
        with code in Hs.
      destruct (chatStore (outside w)) as [|m0 st] eqn:E.
      * exists [ {| role := assistant;
                    content := t code (js "chat.initialMessage");
                    created_at := now |} ].
        split; [exact Hs|].
        split; [repeat constructor; cbn; discriminate|now right].
      * exists []. rewrite app_nil_r.
        split; [assumption|]. split; [constructor|now right].
  - writes_nothing.
  - unfold step. destruct (truthy (trim (input (hooks w)))) eqn:E.
    + rewrite (handleSubmit_accepted _ now w E).
      eexists. split; [reflexivity|].
      split; [repeat constructor; discriminate|now left].
    + unfold exec. rewrite handleSubmit_blank by assumption.
      writes_nothing.
  - unfold step. destruct (inflight (outside w)).
    + writes_nothing.
    + destruct settled as [[[|c s]|]|]; handler; cbn;
        try writes_nothing.
      destruct (has_speechSynthesis window); cbn;
        (eexists; split; [reflexivity|];
         split; [repeat constructor; discriminate|now left]).
  - unfold step, exec, shareLocation.
    destruct (has_geolocation window);
      writes_nothing.
  - unfold step. destruct (positionRequests (outside w)).
    + writes_nothing.
    + eexists. split; [reflexivity|].
      split; [repeat constructor; discriminate|now left].
  - unfold step. destruct (positionRequests (outside w));
      writes_nothing.
  - unfold step, exec, toggleVoiceInput.
    destruct (recognition (hooks w)); [destruct (isRecording (hooks w))|];
      writes_nothing.
  - writes_nothing.
  - writes_nothing.
  - writes_nothing.
Qed.

(** A step sends at most one request, built from the hooks it saw. *)
Lemma step_requests (e : Event) (w : World) :
  backendCalls (outside (step e w)) = backendCalls (outside w) \/
  backendCalls (outside (step e w)) =
    backendCalls (outside w) ++ [apiMessages_of (hooks w)].
Proof.
  destruct e as [code now|value|now|settled now| |position now| | |tr| |];
    try (left; reflexivity).
  - unfold step. destruct (jsstring_eqb code (language (outside w)));
      [now left|].
    change (exec (i18n_changeLanguage code ;; initialize now) w)
      with (exec (initialize now) (exec (i18n_changeLanguage code) w)).
    left.
    now destruct (initialize_store now (exec (i18n_changeLanguage code) w))
      as (_ & _ & _ & _ & Hb & _).
  - unfold step. destruct (truthy (trim (input (hooks w)))) eqn:E.
    + rewrite (handleSubmit_accepted _ now w E). now right.
    + unfold exec. rewrite handleSubmit_blank by assumption. now left.
  - unfold step. destruct (inflight (outside w)); [now left|].
    destruct settled as [[[|c s]|]|]; handler; cbn;
      try destruct (has_speechSynthesis window); now left.
  - unfold step, exec, shareLocation.
    destruct (has_geolocation window); now left.
  - unfold step. destruct (positionRequests (outside w)); now left.
  - unfold step. destruct (positionRequests (outside w)); now left.
  - unfold step, exec, toggleVoiceInput.
    destruct (recognition (hooks w)); [destruct (isRecording (hooks w))|];
      now left.
Qed.

Lemma apiMessages_of_ok (c : Render) :
  no_system (messages c) -> request_ok (apiMessages_of c).
Proof.
  intros Hc. unfold request_ok, apiMessages_of. eexists. split; [reflexivity|].
  apply Forall_app. split.
  - apply Forall_map. eapply Forall_impl; [|exact Hc]. now intros m Hm.
  - repeat constructor. cbn. discriminate.
Qed.

Lemma step_live (e : Event) (w : World) : live w -> live (step e w).
Proof.
  intros (Hsync & Hne).
  destruct (step_appends e w) as (d & Hs & _ & Hm).
  unfold live, in_sync in *. split.
  - destruct Hm as [Hm|Hm]; [|assumption]. now rewrite Hm, Hs, Hsync.
  - rewrite Hs. intros H. apply app_eq_nil in H. now destruct H.
Qed.

Lemma step_clean (e : Event) (w : World) : clean w -> clean (step e w).
Proof.
  intros (Hmsg & Hst & Hreq).
  destruct (step_appends e w) as (d & Hs & Hd & Hm).
  assert (Hst' : no_system (chatStore (outside (step e w)))).
  { rewrite Hs. apply Forall_app. now split. }
  unfold clean. repeat split.
  - destruct Hm as [Hm|Hm]; rewrite Hm; [|assumption].
    apply Forall_app. now split.
  - assumption.
  - destruct (step_requests e w) as [Hb|Hb]; rewrite Hb; [assumption|].
    apply Forall_app. split; [assumption|]. constructor; [|constructor].
    now apply apiMessages_of_ok.
Qed.

Lemma run_preserves (P : World -> Prop) :
  (forall e w, P w -> P (step e w)) ->
  forall es w, P w -> P (run es w).
Proof.
  intros Hstep es. induction es as [|e es IH]; intros w Hw; [assumption|].
  cbn. apply IH. now apply Hstep.
Qed.

Lemma mount_store (store : list Message) (code now : jsstring) :
  let greeting :=
    {| role := assistant; content := t code (js "chat.initialMessage");
       created_at := now |} in
  chatStore (outside (mount store code now)) =
    match store with [] => [greeting] | _ :: _ => store end /\
  messages (hooks (mount store code now)) =
    chatStore (outside (mount store code now)) /\
  backendCalls (outside (mount store code now)) = [].
Proof.
  destruct (initialize_store now (pristine store code))
    as (Hs & Hm & _ & _ & Hb & _).
  repeat split; assumption.
Qed.

Lemma mount_live (store : list Message) (code now : jsstring) :
  live (mount store code now).
Proof.
  destruct (mount_store store code now) as (Hs & Hm & _).
  split; [exact Hm|]. rewrite Hs. destruct store; discriminate.
Qed.

Lemma mount_clean (store : list Message) (code now : jsstring) :
  no_system store -> clean (mount store code now).
Proof.
  intros Hstore.
  destruct (mount_store store code now) as (Hs & Hm & Hb).
  unfold clean. rewrite Hb, Hm, Hs.
  destruct store as [|m0 st]; repeat split;
    try assumption; try constructor; try (cbn; discriminate); constructor.
Qed.

(** ** The effect: seeding and reloading *)

(** C3.  Mounting over an empty store yields the one assistant greeting,
    in the session and in the store.  Mounting over a store that holds
    messages yields exactly those messages, in their order, and writes
    nothing.  However the page got where it is, a later run of the effect
    for a newly selected language changes neither session nor store: the
    greeting is not seeded again. *)
Theorem initialize_seeds_once
    (code now : jsstring) (m : Message) (rest : list Message)
    (store : list Message) (es : list Event) (code' now' : jsstring) :
  let greeting :=
    {| role := assistant; content := t code (js "chat.initialMessage");
       created_at := now |} in
  (messages (hooks (mount [] code now)) = [greeting] /\
   chatStore (outside (mount [] code now)) = [greeting]) /\
  (messages (hooks (mount (m :: rest) code now)) = m :: rest /\
   chatStore (outside (mount (m :: rest) code now)) = m :: rest) /\
  (let w := run es (mount store code now) in
   let w' := step (LanguageSelected code' now') w in
   messages (hooks w) <> [] /\
   messages (hooks w') = messages (hooks w) /\
   chatStore (outside w') = chatStore (outside w)).
Proof.
  intros greeting. split; [|split].
  - destruct (mount_store [] code now) as (Hs & Hm & _).
    rewrite Hm, Hs. now split.
  - destruct (mount_store (m :: rest) code now) as (Hs & Hm & _).
    rewrite Hm, Hs. now split.
  - intros w w'.
    assert (Hlive : live w)
      by (apply run_preserves; [exact step_live|apply mount_live]).
    destruct Hlive as (Hsync & Hne). unfold in_sync in Hsync.
    split; [now rewrite Hsync|].
    subst w'. unfold step.
    destruct (jsstring_eqb code' (language (outside w))); [now split|].
    change (exec (i18n_changeLanguage code' ;; initialize now') w)
      with (exec (initialize now') (exec (i18n_changeLanguage code') w)).
    destruct (initialize_store now' (exec (i18n_changeLanguage code') w))
      as (Hs & Hm & _).
    change (chatStore (outside (exec (i18n_changeLanguage code') w)))
      with (chatStore (outside w)) in Hs.
    rewrite Hm, Hs, Hsync.
    destruct (chatStore (outside w)); [congruence|now split].
Qed.

(** ** System messages *)

(** C8.  Start from a store without system messages.  Then in every state
    the page can reach, neither the session nor the store holds a system
    message, every event extends the store by user and assistant messages
    only, and each request sent so far consists of the system prompt
    followed by messages of the other two roles. *)
Theorem system_messages_only_in_requests
    (store : list Message) (code now : jsstring) (es : list Event) :
  no_system store ->
  let w := run es (mount store code now) in
  no_system (messages (hooks w)) /\
  no_system (chatStore (outside w)) /\
  Forall request_ok (backendCalls (outside w)) /\
  (forall e, exists d,
      chatStore (outside (step e w)) = chatStore (outside w) ++ d /\
      no_system d /\
      no_system (messages (hooks (step e w)))).
Proof.
  intros Hstore w.
  assert (Hclean : clean w)
    by (apply run_preserves; [exact step_clean|now apply mount_clean]).
  destruct Hclean as (Hm & Hs & Hr). repeat split; try assumption.
  intros e. destruct (step_appends e w) as (d & Hd & Hns & _).
  exists d. repeat split; try assumption.
  now destruct (step_clean e w) as (Hm' & _).
Qed.

(** ** What the form offers *)

Lemma offered_step_one_at_a_time (e : Event) (w : World) :
  offered e w = true -> one_at_a_time w -> one_at_a_time (step e w).
Proof.
  unfold one_at_a_time.
  destruct e as [code now|value|now|settled now| |position now| | |tr| |];
    intros Hoff Hw; try exact Hw.
  - unfold step. destruct (jsstring_eqb code (language (outside w)));
      [exact Hw|].
    change (exec (i18n_changeLanguage code ;; initialize now) w)
      with (exec (initialize now) (exec (i18n_changeLanguage code) w)).
    destruct (initialize_store now (exec (i18n_changeLanguage code) w))
      as (_ & _ & _ & _ & _ & Hi & Ht).
    rewrite Hi, Ht. exact Hw.
  - cbn in Hoff. unfold submit_disabled in Hoff.
    apply negb_true_iff, orb_false_iff in Hoff. destruct Hoff as [Hin Hty].
    apply negb_false_iff in Hin. unfold step.
    rewrite (handleSubmit_accepted _ now w Hin). cbn.
    rewrite Hw, Hty. reflexivity.
  - unfold step. destruct (inflight (outside w)) eqn:E; [now rewrite E|].
    change (exec (promise_settled ;; handleSubmit_resume settled now) w)
      with (exec (handleSubmit_resume settled now) (exec promise_settled w)).
    rewrite resume_clears_typing.
    destruct (isTyping (hooks w)); [|discriminate].
    injection Hw as ->.
    destruct settled as [[[|c s]|]|]; handler; cbn; rewrite ?E;
      try destruct (has_speechSynthesis window); reflexivity.
  - unfold step, exec, shareLocation.
    destruct (has_geolocation window); exact Hw.
  - unfold step. destruct (positionRequests (outside w)); exact Hw.
  - unfold step. destruct (positionRequests (outside w)); exact Hw.
  - unfold step, exec, toggleVoiceInput.
    destruct (recognition (hooks w)); [destruct (isRecording (hooks w))|];
      exact Hw.
Qed.

(** X15.  Through the form, at most one request is in flight, and
    [isTyping] tells whether one is. *)
Lemma form_serialises_submissions
    (store : list Message) (code now : jsstring) (es : list Event) (w : World) :
  ui_run es (mount store code now) = Some w -> one_at_a_time w.
Proof.
  assert (H0 : one_at_a_time (mount store code now)).
  { unfold one_at_a_time, mount.
    destruct (initialize_store now (pristine store code))
      as (_ & _ & _ & _ & _ & Hi & Ht).
    rewrite Hi, Ht. reflexivity. }
  revert H0. generalize (mount store code now) as w0.
  induction es as [|e es IH]; intros w0 H0 Hrun; cbn in Hrun.
  - now injection Hrun as <-.
  - destruct (offered e w0) eqn:Hoff; [|discriminate].
    apply (IH (step e w0)); [|assumption].
    now apply offered_step_one_at_a_time.
Qed.

(** * Further properties *)

(** String literals stay folded in what follows. *)
#[local] Arguments js : simpl never.
#[local] Arguments SYSTEM_PROMPT : simpl never.

(** ** White space *)

Lemma trimStart_nil_iff (s : jsstring) :
  trimStart s = [] <-> forallb isWhiteSpace s = true.
Proof.
  induction s as [|c s IH]; cbn; [tauto|].
  destruct (isWhiteSpace c); cbn; [exact IH|].
  split; discriminate.
Qed.

Lemma trim_nil_iff (s : jsstring) :
  trim s = [] <-> forallb isWhiteSpace s = true.
Proof.
  unfold trim, trimEnd. split.
  - intros H. apply trimStart_nil_iff.
    destruct (trimStart s) as [|c r] eqn:E; [reflexivity|].
    assert (Hc : isWhiteSpace c = false).
    { destruct s as [|a s']; [discriminate|]. revert E.
      induction (a :: s') as [|b l IH]; cbn; [discriminate|].
      destruct (isWhiteSpace b) eqn:Eb; [exact IH|].
      intros [= -> _]. exact Eb. }
    apply (f_equal (@rev N)) in H. rewrite rev_involutive in H. cbn in H.
    apply trimStart_nil_iff in H. cbn [rev] in H.
    rewrite forallb_app in H. cbn in H. rewrite Hc in H.
    now rewrite andb_false_r in H.
  - intros H. apply trimStart_nil_iff in H. now rewrite H.
Qed.

Lemma blank_iff_white_space (s : jsstring) :
  truthy (trim s) = false <-> forallb isWhiteSpace s = true.
Proof.
  rewrite <- trim_nil_iff. destruct (trim s); cbn; split;
    congruence.
Qed.

Lemma jsstring_eqb_eq (a b : jsstring) : jsstring_eqb a b = true -> a = b.
Proof.
  revert b. induction a as [|x a IH]; intros [|y b]; cbn;
    try discriminate; [reflexivity|].
  intros H. apply andb_true_iff in H. destruct H as [Hx Hab].
  apply N.eqb_eq in Hx. subst y. f_equal. now apply IH.
Qed.

(** ** The effect, in closed form *)

Lemma initialize_exec (now : jsstring) (w : World) :
  exec (initialize now) w =
  let shown :=
    match chatStore (outside w) with
    | [] => [ {| role := assistant;
                 content := t (language (outside w)) (js "chat.initialMessage");
                 created_at := now |} ]
    | _ :: _ => chatStore (outside w)
    end in
  {| hooks := {| messages := shown;
                 input := input (hooks w);
                 isTyping := isTyping (hooks w);
                 location := location (hooks w);
                 isRecording := isRecording (hooks w);
                 recognition :=
                   if has_webkitSpeechRecognition window
                   then Some (recognition_for (language (outside w)))
                   else recognition (hooks w) |};
     outside := {| language := language (outside w);
                   chatStore := shown;
                   toasts := toasts (outside w);
                   backendCalls := backendCalls (outside w);
                   inflight := inflight (outside w);
                   spoken := spoken (outside w);
                   recognitionCalls := recognitionCalls (outside w);
                   positionRequests := positionRequests (outside w) |} |}.
Proof.
  destruct w as [h o]. destruct h, o. handler. unfold recognition_for.
  cbn. destruct (has_webkitSpeechRecognition window);
    destruct chatStore0; reflexivity.
Qed.

Lemma language_selected (code now : jsstring) (w : World) :
  step (LanguageSelected code now) w =
  if jsstring_eqb code (language (outside w)) then w
  else exec (initialize now) (exec (i18n_changeLanguage code) w).
Proof. reflexivity. Qed.

(** ** Submissions and their answers *)

(** What the continuation of [handleSubmit] never touches. *)
Lemma resume_frame settled now (w : World) :
  let w' := exec (handleSubmit_resume settled now) w in
  input (hooks w') = input (hooks w) /\
  inflight (outside w') = inflight (outside w) /\
  backendCalls (outside w') = backendCalls (outside w) /\
  language (outside w') = language (outside w) /\
  location (hooks w') = location (hooks w) /\
  isRecording (hooks w') = isRecording (hooks w) /\
  recognition (hooks w') = recognition (hooks w) /\
  recognitionCalls (outside w') = recognitionCalls (outside w).
Proof.
  destruct settled as [[[|c s]|]|]; handler; cbn;
    try destruct (has_speechSynthesis window); repeat split.
Qed.

(** X1.  A submission is ignored exactly when the field holds nothing but
    white space (or nothing at all): only then does it leave the world as
    it was. *)
Theorem submission_ignored_iff_white_space (w : World) (now : jsstring) :
  step (FormSubmitted now) w = w <->
  forallb isWhiteSpace (input (hooks w)) = true.
Proof.
  rewrite <- blank_iff_white_space. split.
  - intros H. destruct (truthy (trim (input (hooks w)))) eqn:E;
      [|reflexivity].
    unfold step in H. rewrite (handleSubmit_accepted _ now w E) in H.
    apply (f_equal (fun x => List.length (chatStore (outside x)))) in H.
    cbn in H. rewrite length_app in H. cbn in H. lia.
  - intros H. unfold step, exec. now rewrite handleSubmit_blank.
Qed.

(** X2.  Whether a second submission right after an accepted one does
    anything depends on the render its handler comes from.  The handler of
    the page as re-rendered after the first submission sees the emptied
    field and does nothing.  The handler of the render that was submitted,
    run once more before the page re-rendered, still sees the text: it
    appends the user message a second time and sends the same request
    again. *)
Theorem second_submit_needs_a_render (w : World) (now now' : jsstring) :
  truthy (trim (input (hooks w))) = true ->
  let question ts :=
    {| content := input (hooks w); role := user; created_at := ts |} in
  let w1 := step (FormSubmitted now) w in
  let stale := exec (handleSubmit (hooks w) now') w1 in
  step (FormSubmitted now') w1 = w1 /\
  messages (hooks stale) =
    messages (hooks w) ++ [question now; question now'] /\
  chatStore (outside stale) =
    chatStore (outside w) ++ [question now; question now'] /\
  backendCalls (outside stale) =
    backendCalls (outside w)
    ++ [apiMessages_of (hooks w); apiMessages_of (hooks w)] /\
  inflight (outside stale) = S (S (inflight (outside w))).
Proof.
  intros Hin question w1 stale. subst stale w1 question.
  change (step (FormSubmitted now) w)
    with (exec (handleSubmit (hooks w) now) w).
  rewrite (handleSubmit_accepted _ now w Hin). split.
  - unfold step, exec. now rewrite handleSubmit_blank.
  - rewrite (handleSubmit_accepted (hooks w) now' _ Hin).
    cbn [hooks outside messages chatStore backendCalls inflight].
    rewrite <- !app_assoc. repeat split.
Qed.

(** X3.  A submission followed by a reply with text: question and answer
    are appended, in this order, to the session and to the store, the
    field is empty, [isTyping] is false again, no toast is shown, and the
    answer is spoken in the current language where the browser can
    speak. *)
Theorem exchange_appends_question_and_answer
    (w : World) (reply now now' : jsstring) :
  truthy (trim (input (hooks w))) = true ->
  truthy reply = true ->
  let question :=
    {| content := input (hooks w); role := user; created_at := now |} in
  let answer :=
    {| content := reply; role := assistant; created_at := now' |} in
  let w2 :=
    run [FormSubmitted now; BackendSettled (resolved (Some reply)) now'] w in
  messages (hooks w2) = messages (hooks w) ++ [question; answer] /\
  chatStore (outside w2) = chatStore (outside w) ++ [question; answer] /\
  input (hooks w2) = [] /\
  isTyping (hooks w2) = false /\
  toasts (outside w2) = toasts (outside w) /\
  inflight (outside w2) = inflight (outside w) /\
  spoken (outside w2) =
    spoken (outside w)
    ++ (if has_speechSynthesis window
        then [{| utter_text := reply; utter_lang := language (outside w) |}]
        else []).
Proof.
  intros Hin Hreply question answer w2. subst w2 question answer.
  unfold run. cbn [fold_left].
  change (step (FormSubmitted now) w)
    with (exec (handleSubmit (hooks w) now) w).
  rewrite (handleSubmit_accepted _ now w Hin).
  match goal with
  | |- context [step (BackendSettled ?s ?n) ?x] =>
      change (step (BackendSettled s n) x)
        with (exec (handleSubmit_resume s n) (exec promise_settled x))
  end.
  match goal with
  | |- context [exec (handleSubmit_resume ?s _) ?x] =>
      destruct (resume_reply reply now' x Hreply)
        as (Hm & Hs & Hsp & Ht & Hty);
      destruct (resume_frame s now' x) as (Hi & Hf & _)
  end.
  cbv zeta in Hm, Hs, Hsp, Ht, Hty, Hi, Hf.
  rewrite Hm, Hs, Hsp, Ht, Hty, Hi, Hf.
  cbn [exec promise_settled modify_outside snd hooks outside messages
       chatStore spoken toasts language inflight input pred].
  rewrite <- !app_assoc. repeat split.
Qed.

(** X4.  The answer is spoken in the language that is selected when it
    arrives, not in the one the question was asked in. *)
Theorem reply_spoken_in_language_at_arrival
    (w : World) (code reply now now' now'' : jsstring) :
  has_speechSynthesis window = true ->
  truthy (trim (input (hooks w))) = true ->
  truthy reply = true ->
  let w3 :=
    run [FormSubmitted now; LanguageSelected code now';
         BackendSettled (resolved (Some reply)) now''] w in
  spoken (outside w3) =
    spoken (outside w) ++ [{| utter_text := reply; utter_lang := code |}].
Proof.
  intros Hspeak Hin Hreply w3. subst w3.
  unfold run. cbn [fold_left].
  change (step (FormSubmitted now) w)
    with (exec (handleSubmit (hooks w) now) w).
  rewrite (handleSubmit_accepted _ now w Hin).
  rewrite language_selected.
  match goal with
  | |- context [if jsstring_eqb code ?l then _ else _] =>
      destruct (jsstring_eqb code l) eqn:E;
      [apply jsstring_eqb_eq in E; cbn [language outside] in E; subst code
      |rewrite initialize_exec; cbv zeta]
  end;
    match goal with
    | |- context [step (BackendSettled ?s ?n) ?x] =>
        change (step (BackendSettled s n) x)
          with (exec (handleSubmit_resume s n) (exec promise_settled x));
        destruct (resume_reply reply n (exec promise_settled x) Hreply)
          as (_ & _ & Hsp & _)
    end;
    cbv zeta in Hsp; rewrite Hsp, Hspeak; reflexivity.
Qed.

(** ** Voice input and the language *)

(** X5.  Selecting another language while a recording runs builds a new
    recognition object and leaves [isRecording] set.  The next click on
    the voice button therefore calls [stop()] on the new object, which was
    never started, and the flag stays set. *)
Theorem language_change_while_recording (w : World) (code now : jsstring) :
  has_webkitSpeechRecognition window = true ->
  isRecording (hooks w) = true ->
  jsstring_eqb code (language (outside w)) = false ->
  let w1 := step (LanguageSelected code now) w in
  let w2 := step VoiceClicked w1 in
  recognition (hooks w1) = Some (recognition_for code) /\
  isRecording (hooks w1) = true /\
  recognitionCalls (outside w1) = recognitionCalls (outside w) /\
  recognitionCalls (outside w2) =
    recognitionCalls (outside w) ++ [rec_stop (recognition_for code)] /\
  isRecording (hooks w2) = true.
Proof.
  intros Hrec Hon Hother w1 w2. subst w2 w1.
  rewrite language_selected, Hother, initialize_exec.
  unfold step, toggleVoiceInput. cbn. rewrite Hrec, Hon. cbn.
  repeat split; assumption.
Qed.

(** ** Runs *)

Lemma run_app (es1 es2 : list Event) (w : World) :
  run (es1 ++ es2) w = run es2 (run es1 w).
Proof. apply fold_left_app. Qed.

(** One case per event and per branch of its handler. *)
Ltac event_cases e w :=
  destruct e;
  [ rewrite language_selected;
    match goal with
    | |- context [jsstring_eqb ?c ?l] => destruct (jsstring_eqb c l) eqn:?
    end; [|rewrite initialize_exec]
  | unfold step
  | unfold step; destruct (truthy (trim (input (hooks w)))) eqn:?;
    [ match goal with
      | H : truthy _ = true |- context [handleSubmit _ ?n] =>
          rewrite (handleSubmit_accepted _ n w H)
      end
    | unfold exec; rewrite handleSubmit_blank by assumption ]
  | unfold step; destruct (inflight (outside w)) eqn:?;
    [| match goal with
       | |- context [handleSubmit_resume ?s _] => destruct s as [[[|? ?]|]|]
       end; handler; cbn;
       try destruct (has_speechSynthesis window) eqn:? ]
  | unfold step, exec, shareLocation; destruct (has_geolocation window) eqn:?
  | unfold step; destruct (positionRequests (outside w)) eqn:?
  | unfold step; destruct (positionRequests (outside w)) eqn:?
  | unfold step, exec, toggleVoiceInput;
    destruct (recognition (hooks w)) eqn:?;
    [destruct (isRecording (hooks w)) eqn:?|]
  | unfold step
  | unfold step
  | unfold step ];
  cbn.

Lemma step_store_length (e : Event) (w : World) :
  List.length (chatStore (outside (step e w)))
  <= S (List.length (chatStore (outside w))).
Proof.
  event_cases e w; rewrite ?length_app; cbn; try lia.
  destruct (chatStore (outside w)); cbn; lia.
Qed.

Lemma run_appends (es : list Event) (w : World) :
  exists d,
    chatStore (outside (run es w)) = chatStore (outside w) ++ d /\
    List.length d <= List.length es /\
    no_system d.
Proof.
  revert w. induction es as [|e es IH]; intros w.
  - exists []. rewrite app_nil_r. repeat split; [cbn; lia|constructor].
  - cbn [run fold_left]. destruct (IH (step e w)) as (d2 & H2 & L2 & N2).
    destruct (step_appends e w) as (d1 & H1 & N1 & _).
    pose proof (step_store_length e w) as L1.
    rewrite H1, length_app in L1.
    exists (d1 ++ d2). fold (run es (step e w)).
    rewrite H2, H1, <- app_assoc, length_app. repeat split.
    + cbn. lia.
    + apply Forall_app. now split.
Qed.

Lemma run_live (store : list Message) (code now : jsstring) (es : list Event) :
  live (run es (mount store code now)).
Proof. apply run_preserves; [exact step_live|apply mount_live]. Qed.

(** ** Session and store *)

(** X6.  Reloading the page brings back the session: mounting anew over
    the store of any state the page can reach, in whatever language,
    shows exactly the messages that were shown, and writes nothing. *)
Theorem reload_restores_session
    (store : list Message) (code now : jsstring) (es : list Event)
    (code' now' : jsstring) :
  let w := run es (mount store code now) in
  let w' := mount (chatStore (outside w)) code' now' in
  messages (hooks w') = messages (hooks w) /\
  chatStore (outside w') = chatStore (outside w).
Proof.
  intros w w'. destruct (run_live store code now es) as (Hsync & Hne).
  fold w in Hsync, Hne. unfold in_sync in Hsync. subst w'.
  destruct (mount_store (chatStore (outside w)) code' now') as (Hs & Hm & _).
  rewrite Hm, Hs, Hsync. destruct (chatStore (outside w)); [congruence|].
  now split.
Qed.

(** X7.  Messages are only ever appended.  Whatever happens after a
    state the page has reached, session and store keep the messages they
    had, in place, and grow by the same new messages: at most one per
    event, none of them a system message. *)
Theorem session_is_append_only
    (store : list Message) (code now : jsstring) (es1 es2 : list Event) :
  let w0 := run es1 (mount store code now) in
  let w1 := run es2 w0 in
  exists d,
    messages (hooks w1) = messages (hooks w0) ++ d /\
    chatStore (outside w1) = chatStore (outside w0) ++ d /\
    List.length d <= List.length es2 /\
    no_system d.
Proof.
  intros w0 w1.
  destruct (run_appends es2 w0) as (d & Hd & Hl & Hn). fold w1 in Hd.
  destruct (run_live store code now es1) as (H0 & _). fold w0 in H0.
  destruct (run_live store code now (es1 ++ es2)) as (H1 & _).
  rewrite run_app in H1. fold w0 w1 in H1. unfold in_sync in H0, H1.
  exists d. rewrite H1, H0. repeat split; assumption.
Qed.

(** X8.  What a request carries is what the store holds: in every state
    the page can reach, an accepted submission sends the system prompt,
    then every stored message (greeting and location messages included)
    cut down to role and content, then the new user message. *)
Theorem request_carries_the_store
    (store : list Message) (code now : jsstring) (es : list Event)
    (now' : jsstring) :
  let w := run es (mount store code now) in
  truthy (trim (input (hooks w))) = true ->
  backendCalls (outside (step (FormSubmitted now') w)) =
    backendCalls (outside w)
    ++ [ {| api_role := system; api_content := SYSTEM_PROMPT |}
         :: map strip (chatStore (outside w))
         ++ [ {| api_role := user; api_content := input (hooks w) |} ] ].
Proof.
  intros w Hin. destruct (run_live store code now es) as (Hsync & _).
  fold w in Hsync. unfold in_sync in Hsync. unfold step.
  rewrite (handleSubmit_accepted _ now' w Hin). cbn.
  unfold apiMessages_of. now rewrite Hsync.
Qed.

(** ** The backend *)

Lemma step_backend_other (e : Event) (w : World) :
  is_submit e = false ->
  backendCalls (outside (step e w)) = backendCalls (outside w).
Proof.
  intros He. event_cases e w; try reflexivity; discriminate.
Qed.

(** X9.  Only submissions of the form reach the backend: over any run,
    the requests sent are at most as many as the run has submissions, and
    the requests sent before stay as they were.  Typing, voice input,
    location sharing, language changes and replies send nothing. *)
Theorem only_submissions_reach_backend (es : list Event) (w : World) :
  exists reqs,
    backendCalls (outside (run es w)) = backendCalls (outside w) ++ reqs /\
    List.length reqs <= List.length (filter is_submit es).
Proof.
  revert w. induction es as [|e es IH]; intros w.
  - exists []. rewrite app_nil_r. split; [reflexivity|cbn; lia].
  - cbn [run fold_left filter]. fold (run es (step e w)).
    destruct (IH (step e w)) as (r2 & H2 & L2).
    destruct (is_submit e) eqn:He.
    + destruct (step_requests e w) as [H1|H1]; rewrite H2, H1.
      * exists r2. split; [reflexivity|cbn; lia].
      * eexists. rewrite <- app_assoc. split; [reflexivity|cbn; lia].
    + exists r2. rewrite H2, (step_backend_other e w He). now split.
Qed.

(** ** Browsers without speech *)

Lemma step_recognition_unused (e : Event) (w : World) :
  has_webkitSpeechRecognition window = false ->
  recognition_unused w -> recognition_unused (step e w).
Proof.
  intros Hno (Hr & Hc & Hf). unfold recognition_unused.
  event_cases e w; rewrite ?Hno; repeat split; congruence.
Qed.

(** X10.  In a browser without [webkitSpeechRecognition] the page never
    holds a recognition object, never calls [start()] or [stop()] and
    never shows itself recording; a click on the voice button changes
    nothing of the page and shows the one toast that says so. *)
Theorem without_recognition_nothing_is_recorded
    (store : list Message) (code now : jsstring) (es : list Event) :
  has_webkitSpeechRecognition window = false ->
  let w := run es (mount store code now) in
  recognition (hooks w) = None /\
  recognitionCalls (outside w) = [] /\
  isRecording (hooks w) = false /\
  hooks (step VoiceClicked w) = hooks w /\
  toasts (outside (step VoiceClicked w)) =
    toasts (outside w) ++ [unsupported_toast].
Proof.
  intros Hno w.
  assert (H : recognition_unused w).
  { apply run_preserves; [intros e w0; now apply step_recognition_unused|].
    unfold mount. rewrite initialize_exec. unfold recognition_unused. cbn.
    rewrite Hno. now repeat split. }
  destruct H as (Hr & Hc & Hf). repeat split; try assumption;
    unfold step, exec, toggleVoiceInput; rewrite Hr; reflexivity.
Qed.

Lemma step_spoken (e : Event) (w : World) :
  has_speechSynthesis window = false ->
  spoken (outside (step e w)) = spoken (outside w).
Proof.
  intros Hno. event_cases e w; try reflexivity; discriminate.
Qed.

(** X11.  In a browser without [speechSynthesis] nothing is ever handed
    to the synthesiser, whatever happens and whatever the backend
    answers. *)
Theorem without_synthesis_nothing_is_spoken (es : list Event) (w : World) :
  has_speechSynthesis window = false ->
  spoken (outside (run es w)) = spoken (outside w).
Proof.
  intros Hno. revert w. induction es as [|e es IH]; intros w; [reflexivity|].
  cbn [run fold_left]. fold (run es (step e w)).
  now rewrite IH, step_spoken.
Qed.

(** ** The location on the map *)

Lemma step_location_backed (e : Event) (w : World) :
  location_backed w -> location_backed (step e w).
Proof.
  intros H. unfold location_backed.
  event_cases e w; intros loc Hloc; cbn in Hloc;
    first
      [ injection Hloc as <-; eexists; apply in_or_app; right; left;
        reflexivity
      | destruct (H loc Hloc) as [ts Hin]; exists ts;
        first
          [ exact Hin
          | apply in_or_app; left; exact Hin
          | destruct (chatStore (outside w)); [destruct Hin|exact Hin] ] ].
Qed.

(** X12.  The location the page keeps for its map is never without its
    message: whenever a location is set, the session holds a user message
    announcing exactly these coordinates. *)
Theorem shown_location_has_its_message
    (store : list Message) (code now : jsstring) (es : list Event)
    (l : Location) :
  let w := run es (mount store code now) in
  location (hooks w) = Some l ->
  exists now', In (location_message l now') (messages (hooks w)).
Proof.
  intros w Hl.
  assert (H : location_backed w).
  { apply run_preserves; [exact step_location_backed|].
    unfold mount. rewrite initialize_exec. intros l' Hl'. discriminate. }
  destruct (run_live store code now es) as (Hsync & _).
  fold w in Hsync. unfold in_sync in Hsync. rewrite Hsync. now apply H.
Qed.

(** ** What leaves the conversation alone *)

(** X13.  Once the page is mounted, typing, voice input, recognition
    events, a refused or merely requested position and a change of
    language leave the conversation as it is, in the session and in the
    store. *)
Theorem conversation_untouched_by_other_events
    (store : list Message) (code now : jsstring) (es : list Event)
    (e : Event) :
  writes e = false ->
  let w := run es (mount store code now) in
  messages (hooks (step e w)) = messages (hooks w) /\
  chatStore (outside (step e w)) = chatStore (outside w).
Proof.
  intros He w. destruct (run_live store code now es) as (Hsync & Hne).
  fold w in Hsync, Hne. unfold in_sync in Hsync. revert Hsync Hne.
  generalize w as w0. intros w0 Hsync Hne.
  event_cases e w0; try discriminate; try (now split).
  rewrite Hsync. destruct (chatStore (outside w0)); [congruence|now split].
Qed.

(** X14.  A question whose request failed stays in the session, and the
    next accepted submission sends it along as history: the request then
    holds the prompt, the earlier messages, the failed question and the
    new one. *)
Theorem failed_question_is_sent_again
    (w : World) (again now now' now'' : jsstring) :
  truthy (trim (input (hooks w))) = true ->
  truthy (trim again) = true ->
  let w3 :=
    run [FormSubmitted now; BackendSettled rejected now';
         InputChanged again] w in
  backendCalls (outside (step (FormSubmitted now'') w3)) =
    backendCalls (outside w)
    ++ [ apiMessages_of (hooks w);
         {| api_role := system; api_content := SYSTEM_PROMPT |}
         :: map strip (messages (hooks w))
         ++ [ {| api_role := user; api_content := input (hooks w) |};
              {| api_role := user; api_content := again |} ] ].
Proof.
  intros Hin Hagain w3. subst w3. unfold run. cbn [fold_left].
  unfold step at 4. rewrite (handleSubmit_accepted _ now w Hin).
  unfold step at 3 2. cbn.
  unfold step. rewrite handleSubmit_accepted by exact Hagain. cbn.
  unfold apiMessages_of. cbn. rewrite map_app, <- !app_assoc. reflexivity.
Qed.

End ChatSupport.

Arguments hooks {number} w.
Arguments outside {number} w.
Arguments messages {number} r.
Arguments input {number} r.
Arguments isTyping {number} r.
Arguments location {number} r.
Arguments isRecording {number} r.
Arguments recognition {number} r.
Arguments submit_disabled {number} c.
Arguments apiMessages_of {number} c.
Arguments FormSubmitted {number} now.
Arguments InputChanged {number} value.
Arguments BackendSettled {number} settled now.
Arguments ShareLocationClicked {number}.
Arguments PositionFound {number} position now.
Arguments PositionFailed {number}.
Arguments VoiceClicked {number}.
Arguments RecognitionEnd {number}.
Arguments LanguageSelected {number} code now.
Arguments RecognitionResult {number} transcript.
Arguments RecognitionError {number}.
Arguments step {number} Number_toString t window e w.
Arguments run {number} Number_toString t window es w.
Arguments offered {number} e w.
Arguments ui_run {number} Number_toString t window es w.
Arguments one_at_a_time {number} w.
Arguments location_message {number} Number_toString l now.
Arguments writes {number} e.
Arguments exec {number A} m w.
Arguments handleSubmit {number} c now.

(** * The page at work

    A browser with every capability, one without geolocation, coordinates
    in whole degrees, and a translation table that knows no key (i18next
    then answers with the key itself). *)

Definition browser : Platform :=
  {| has_webkitSpeechRecognition := true;
     has_speechSynthesis := true;
     has_geolocation := true |}.

Definition no_geolocation : Platform :=
  {| has_webkitSpeechRecognition := true;
     has_speechSynthesis := true;
     has_geolocation := false |}.

Definition degrees (z : Z) : jsstring :=
  js (DecimalString.NilZero.string_of_int (Z.to_int z)).

Definition untranslated (code key : jsstring) : jsstring := key.

Definition page_step := step degrees untranslated browser.
Definition page_run := run degrees untranslated browser.

Definition nine : jsstring := js "2024-05-01T09:00:00.000Z".
Definition ten : jsstring := js "2024-05-01T10:00:00.000Z".
Definition eleven : jsstring := js "2024-05-01T11:00:00.000Z".

Definition greeting : Message :=
  {| role := assistant; content := js "chat.initialMessage";
     created_at := nine |}.

(** Freshly mounted over an empty store, English selected. *)
Definition fresh : World Z :=
  mount Z untranslated browser [] (js "en") nine.

(** The user has typed a call for help. *)
Definition typed : World Z :=
  page_step (InputChanged (js "help, fire nearby")) fresh.

(** Only white space in the field. *)
Definition blank_field : World Z :=
  page_step (InputChanged [32%N; 9%N; 160%N]) fresh.

(** The call for help was submitted and the user is typing again. *)
Definition waiting : World Z :=
  page_run [FormSubmitted ten; InputChanged (js "anyone?")] typed.

(** The scenario of the specification's section 8. *)
Example scenario :
  let w1 := page_step (FormSubmitted ten) typed in
  let w2 :=
    page_step
      (BackendSettled (resolved (Some (js "Stay calm, evacuate now."))) eleven)
      w1 in
  messages (hooks fresh) = [greeting] /\
  isTyping (hooks w1) = true /\
  messages (hooks w2) =
    [greeting;
     {| role := user; content := js "help, fire nearby"; created_at := ten |};
     {| role := assistant; content := js "Stay calm, evacuate now.";
        created_at := eleven |}] /\
  chatStore (outside w2) = messages (hooks w2) /\
  spoken (outside w2) =
    [{| utter_text := js "Stay calm, evacuate now."; utter_lang := js "en" |}] /\
  isTyping (hooks w2) = false.
Proof. vm_compute. repeat split. Qed.

(** The request for the typed call for help: prompt, greeting, call. *)
Lemma submit_request_shape_typed :
  truthy (trim (input (hooks typed))) = true /\
  backendCalls (outside (page_step (FormSubmitted ten) typed)) =
    [[ {| api_role := system; api_content := SYSTEM_PROMPT |};
       {| api_role := assistant; api_content := js "chat.initialMessage" |};
       {| api_role := user; api_content := js "help, fire nearby" |} ]].
Proof.
  split; [reflexivity|].
  exact (submit_request_shape Z degrees untranslated browser typed ten
           eq_refl).
Defined.

(** A space, a tab and a no-break space in the field: submitting changes
    nothing. *)
Lemma submit_blank_is_noop_blanks :
  truthy (trim (input (hooks blank_field))) = false /\
  page_step (FormSubmitted ten) blank_field = blank_field.
Proof.
  split; [reflexivity|].
  exact (submit_blank_is_noop Z degrees untranslated browser blank_field ten
           eq_refl).
Defined.

(** The call for help, and the backend fails. *)
Lemma backend_failure_typed :
  let w2 :=
    page_run [FormSubmitted ten; BackendSettled rejected eleven] typed in
  truthy (trim (input (hooks typed))) = true /\
  messages (hooks w2) =
    [greeting;
     {| role := user; content := js "help, fire nearby"; created_at := ten |}] /\
  chatStore (outside w2) = messages (hooks w2) /\
  toasts (outside w2) = [failed_toast] /\
  isTyping (hooks w2) = false.
Proof.
  destruct (backend_failure_keeps_user_message Z degrees untranslated browser
              typed ten eleven eq_refl) as (Hm & Hs & Ht & Hp & _).
  split; [reflexivity|].
  split; [exact Hm|]. split; [exact (eq_trans Hs (eq_sym Hm))|].
  split; [exact Ht|exact Hp].
Defined.

(** The call for help, and the backend answers with the empty string. *)
Lemma empty_reply_typed :
  let w1 := page_step (FormSubmitted ten) typed in
  let w2 := page_step (BackendSettled (resolved (Some [])) eleven) w1 in
  inflight (outside w1) = 1 /\
  reply_truthy (Some []) = false /\
  messages (hooks w2) = messages (hooks w1) /\
  chatStore (outside w2) = chatStore (outside w1) /\
  spoken (outside w2) = [] /\
  toasts (outside w2) = [] /\
  isTyping (hooks w2) = false.
Proof.
  destruct (empty_reply_only_clears_pending Z degrees untranslated browser
              (page_step (FormSubmitted ten) typed) (Some []) eleven
              (fun H => O_S 0 (eq_sym H)) eq_refl)
    as (Hm & Hs & Hsp & Ht & _ & _ & _ & Hp).
  split; [reflexivity|]. split; [reflexivity|].
  split; [exact Hm|]. split; [exact Hs|].
  split; [exact Hsp|]. split; [exact Ht|exact Hp].
Defined.

(** A browser without [navigator.geolocation]. *)
Lemma share_location_without_geolocation_fresh :
  has_geolocation no_geolocation = false /\
  step degrees untranslated no_geolocation ShareLocationClicked fresh = fresh.
Proof.
  split; [reflexivity|].
  exact (share_location_without_geolocation Z degrees untranslated
           no_geolocation fresh eq_refl).
Defined.

(** Sharing 13 degrees north, 80 degrees east. *)
Lemma share_location_chennai :
  let here := {| latitude := 13%Z; longitude := 80%Z |} in
  let w0 := page_step ShareLocationClicked fresh in
  let ok := page_step (PositionFound here ten) w0 in
  let ko := page_step PositionFailed w0 in
  has_geolocation browser = true /\
  messages (hooks ok) =
    [greeting;
     {| role := user;
        content := pin ++ js " Location shared: 13, 80";
        created_at := ten |}] /\
  chatStore (outside ok) = messages (hooks ok) /\
  backendCalls (outside ok) = [] /\
  messages (hooks ko) = [greeting] /\
  chatStore (outside ko) = [greeting] /\
  backendCalls (outside ko) = [].
Proof.
  destruct (share_location_outcomes Z degrees untranslated browser fresh
              {| latitude := 13%Z; longitude := 80%Z |} ten eq_refl)
    as (_ & (m & Hm & Hs & _ & _ & _ & _ & _ & _ & Hb & _)
          & (Hm' & Hs' & _ & _ & Hb' & _)).
  split; [reflexivity|].
  split; [reflexivity|]. split; [reflexivity|].
  split; [exact Hb|]. split; [exact Hm'|]. split; [exact Hs'|exact Hb'].
Defined.

(** Start and stop over a typed input. *)
Lemma voice_start_then_stop_typed :
  let r := {| continuous := false; interimResults := false;
              lang := js "en" |} in
  let w2 := page_run [VoiceClicked; VoiceClicked] typed in
  let w3 := page_run [VoiceClicked; VoiceClicked; RecognitionEnd] typed in
  recognition (hooks typed) = Some r /\
  isRecording (hooks typed) = false /\
  recognitionCalls (outside w2) = [rec_start r; rec_stop r] /\
  isRecording (hooks w2) = true /\
  isRecording (hooks w3) = false /\
  input (hooks w3) = js "help, fire nearby".
Proof.
  destruct (voice_start_then_stop Z degrees untranslated browser typed
              {| continuous := false; interimResults := false;
                 lang := js "en" |} eq_refl eq_refl)
    as (Hc & _ & _ & Hset & Hr & Hi & _).
  split; [reflexivity|]. split; [reflexivity|].
  split; [exact Hc|]. split; [exact Hset|]. split; [exact Hr|exact Hi].
Defined.

(** Recognition is there and idle, the voice button is clicked twice, no
    recognition event has come: the page still shows itself recording. *)
Lemma recording_flag_set_after_stop_click :
  let w2 := page_run [VoiceClicked; VoiceClicked] typed in
  recognition (hooks typed) =
    Some {| continuous := false; interimResults := false; lang := js "en" |} /\
  isRecording (hooks typed) = false /\
  input (hooks w2) = input (hooks typed) /\
  isRecording (hooks w2) = true.
Proof. repeat split. Qed.

(** [handleSubmit] run on the page that waits for a reply. *)
Lemma submit_while_pending_waiting :
  let w' := page_step (FormSubmitted eleven) waiting in
  truthy (trim (input (hooks waiting))) = true /\
  isTyping (hooks waiting) = true /\
  submit_disabled (hooks waiting) = true /\
  inflight (outside w') = 2 /\
  List.length (messages (hooks w')) = 3.
Proof.
  destruct (submit_while_pending Z degrees untranslated browser waiting
              eleven eq_refl eq_refl) as (Hd & Hm & _ & _ & Hi).
  split; [reflexivity|]. split; [reflexivity|].
  split; [exact Hd|]. split; [exact Hi|].
  exact (f_equal (@List.length Message) Hm).
Defined.

(** A request is pending, the field holds text, and the submit button is
    disabled: while a request is pending the form does not take a
    submission. *)
Lemma submit_button_disabled_while_pending :
  inflight (outside waiting) = 1 /\
  isTyping (hooks waiting) = true /\
  truthy (trim (input (hooks waiting))) = true /\
  submit_disabled (hooks waiting) = true /\
  offered (FormSubmitted eleven) waiting = false.
Proof. repeat split. Qed.

(** A store left by an earlier visit, then a whole exchange. *)
Lemma system_messages_only_in_requests_exchange :
  let earlier :=
    [greeting;
     {| role := user; content := js "hello"; created_at := nine |}] in
  let w :=
    page_run
      [InputChanged (js "help, fire nearby"); FormSubmitted ten;
       BackendSettled (resolved (Some (js "Stay calm, evacuate now."))) eleven;
       ShareLocationClicked;
       PositionFound {| latitude := 13%Z; longitude := 80%Z |} eleven]
      (mount Z untranslated browser earlier (js "en") ten) in
  no_system earlier /\
  no_system (messages (hooks w)) /\
  no_system (chatStore (outside w)) /\
  Forall request_ok (backendCalls (outside w)) /\
  List.length (chatStore (outside w)) = 5.
Proof.
  assert (He : no_system
                 [greeting;
                  {| role := user; content := js "hello";
                     created_at := nine |}])
    by (repeat constructor; discriminate).
  destruct (system_messages_only_in_requests Z degrees untranslated browser
              _ (js "en") ten
              [InputChanged (js "help, fire nearby"); FormSubmitted ten;
               BackendSettled
                 (resolved (Some (js "Stay calm, evacuate now."))) eleven;
               ShareLocationClicked;
               PositionFound {| latitude := 13%Z; longitude := 80%Z |} eleven]
              He) as (Hm & Hs & Hr & _).
  split; [exact He|]. split; [exact Hm|]. split; [exact Hs|].
  split; [exact Hr|reflexivity].
Defined.

(** * More of the page at work *)

(** Browsers that lack one of the speech services. *)
Definition no_recognition : Platform :=
  {| has_webkitSpeechRecognition := false;
     has_speechSynthesis := true;
     has_geolocation := true |}.

Definition no_synthesis : Platform :=
  {| has_webkitSpeechRecognition := true;
     has_speechSynthesis := false;
     has_geolocation := true |}.

Definition calm : jsstring := js "Stay calm, evacuate now.".

Definition here : Coords Z := {| latitude := 13%Z; longitude := 80%Z |}.

(** What leads from the fresh page to [waiting]. *)
Definition asking : list (Event Z) :=
  [InputChanged (js "help, fire nearby"); FormSubmitted ten;
   InputChanged (js "anyone?")].

(** The form refuses a second submission while the first is pending. *)
Example form_refuses_while_pending :
  ui_run degrees untranslated browser (asking ++ [FormSubmitted eleven]) fresh
  = None.
Proof. reflexivity. Qed.

Lemma exchange_typed :
  let w2 :=
    page_run [FormSubmitted ten; BackendSettled (resolved (Some calm)) eleven]
      typed in
  truthy (trim (input (hooks typed))) = true /\
  truthy calm = true /\
  messages (hooks w2) =
    [greeting;
     {| role := user; content := js "help, fire nearby"; created_at := ten |};
     {| role := assistant; content := calm; created_at := eleven |}] /\
  chatStore (outside w2) = messages (hooks w2) /\
  input (hooks w2) = [] /\
  isTyping (hooks w2) = false.
Proof.
  destruct (exchange_appends_question_and_answer Z degrees untranslated
              browser typed calm ten eleven eq_refl eq_refl)
    as (Hm & Hs & Hi & Ht & _).
  split; [reflexivity|]. split; [reflexivity|].
  split; [exact Hm|]. split; [exact (eq_trans Hs (eq_sym Hm))|].
  split; [exact Hi|exact Ht].
Defined.

Lemma reply_spoken_in_hindi :
  let w3 :=
    page_run [FormSubmitted ten; LanguageSelected (js "hi") ten;
              BackendSettled (resolved (Some calm)) eleven] typed in
  has_speechSynthesis browser = true /\
  truthy (trim (input (hooks typed))) = true /\
  truthy calm = true /\
  spoken (outside w3) = [{| utter_text := calm; utter_lang := js "hi" |}].
Proof.
  split; [reflexivity|]. split; [reflexivity|]. split; [reflexivity|].
  exact (reply_spoken_in_language_at_arrival Z degrees untranslated browser
           typed (js "hi") calm ten ten eleven eq_refl eq_refl eq_refl).
Defined.

Lemma language_change_while_recording_tamil :
  let recording := page_step VoiceClicked typed in
  let w2 :=
    page_run [LanguageSelected (js "ta") ten; VoiceClicked] recording in
  has_webkitSpeechRecognition browser = true /\
  isRecording (hooks recording) = true /\
  jsstring_eqb (js "ta") (language (outside recording)) = false /\
  recognitionCalls (outside w2) =
    [rec_start (recognition_for (js "en"));
     rec_stop (recognition_for (js "ta"))] /\
  isRecording (hooks w2) = true.
Proof.
  destruct (language_change_while_recording Z degrees untranslated browser
              (page_step VoiceClicked typed) (js "ta") ten
              eq_refl eq_refl eq_refl) as (_ & _ & _ & Hc & Hr).
  split; [reflexivity|]. split; [reflexivity|]. split; [reflexivity|].
  split; [exact Hc|exact Hr].
Defined.

Lemma request_after_sharing_location :
  let es := [ShareLocationClicked; PositionFound here ten;
             InputChanged (js "help, fire nearby")] in
  let w := page_run es fresh in
  truthy (trim (input (hooks w))) = true /\
  backendCalls (outside (page_step (FormSubmitted eleven) w)) =
    [[ {| api_role := system; api_content := SYSTEM_PROMPT |};
       {| api_role := assistant; api_content := js "chat.initialMessage" |};
       {| api_role := user;
          api_content := pin ++ js " Location shared: 13, 80" |};
       {| api_role := user; api_content := js "help, fire nearby" |} ]].
Proof.
  split; [reflexivity|].
  exact (request_carries_the_store Z degrees untranslated browser []
           (js "en") nine
           [ShareLocationClicked; PositionFound here ten;
            InputChanged (js "help, fire nearby")] eleven eq_refl).
Defined.

Lemma voice_clicks_without_recognition :
  let w :=
    run degrees untranslated no_recognition [VoiceClicked; VoiceClicked]
      (mount Z untranslated no_recognition [] (js "en") nine) in
  has_webkitSpeechRecognition no_recognition = false /\
  recognition (hooks w) = None /\
  recognitionCalls (outside w) = [] /\
  isRecording (hooks w) = false /\
  toasts (outside w) = [unsupported_toast; unsupported_toast].
Proof.
  destruct (without_recognition_nothing_is_recorded Z degrees untranslated
              no_recognition [] (js "en") nine [VoiceClicked; VoiceClicked]
              eq_refl) as (Hr & Hc & Hf & _).
  split; [reflexivity|]. split; [exact Hr|]. split; [exact Hc|].
  split; [exact Hf|reflexivity].
Defined.

Lemma exchange_without_synthesis :
  let w :=
    run degrees untranslated no_synthesis
      [InputChanged (js "help, fire nearby"); FormSubmitted ten;
       BackendSettled (resolved (Some calm)) eleven]
      (mount Z untranslated no_synthesis [] (js "en") nine) in
  has_speechSynthesis no_synthesis = false /\
  spoken (outside w) = [] /\
  List.length (messages (hooks w)) = 3.
Proof.
  split; [reflexivity|]. split; [|reflexivity].
  exact (without_synthesis_nothing_is_spoken Z degrees untranslated
           no_synthesis
           [InputChanged (js "help, fire nearby"); FormSubmitted ten;
            BackendSettled (resolved (Some calm)) eleven]
           (mount Z untranslated no_synthesis [] (js "en") nine) eq_refl).
Defined.

Lemma shared_location_has_its_message :
  let w := page_run [ShareLocationClicked; PositionFound here ten] fresh in
  let l := {| lat := 13%Z; lng := 80%Z |} in
  location (hooks w) = Some l /\
  exists now, In (location_message degrees l now) (messages (hooks w)).
Proof.
  split; [reflexivity|].
  exact (shown_location_has_its_message Z degrees untranslated browser []
           (js "en") nine [ShareLocationClicked; PositionFound here ten]
           {| lat := 13%Z; lng := 80%Z |} eq_refl).
Defined.

Lemma transcript_leaves_conversation :
  let e := RecognitionResult (js "fire") in
  writes e = false /\
  messages (hooks (page_step e waiting)) = messages (hooks waiting) /\
  chatStore (outside (page_step e waiting)) = chatStore (outside waiting) /\
  input (hooks (page_step e waiting)) = js "fire".
Proof.
  destruct (conversation_untouched_by_other_events Z degrees untranslated
              browser [] (js "en") nine asking (RecognitionResult (js "fire"))
              eq_refl) as (Hm & Hs).
  split; [reflexivity|]. split; [exact Hm|].
  split; [exact Hs|reflexivity].
Defined.

Lemma failed_question_sent_again_typed :
  let w3 :=
    page_run [FormSubmitted ten; BackendSettled rejected ten;
              InputChanged (js "anyone?")] typed in
  truthy (trim (input (hooks typed))) = true /\
  truthy (trim (js "anyone?")) = true /\
  backendCalls (outside (page_step (FormSubmitted eleven) w3)) =
    [[ {| api_role := system; api_content := SYSTEM_PROMPT |};
       {| api_role := assistant; api_content := js "chat.initialMessage" |};
       {| api_role := user; api_content := js "help, fire nearby" |} ];
     [ {| api_role := system; api_content := SYSTEM_PROMPT |};
       {| api_role := assistant; api_content := js "chat.initialMessage" |};
       {| api_role := user; api_content := js "help, fire nearby" |};
       {| api_role := user; api_content := js "anyone?" |} ]].
Proof.
  split; [reflexivity|]. split; [reflexivity|].
  exact (failed_question_is_sent_again Z degrees untranslated browser typed
           (js "anyone?") ten ten eleven eq_refl eq_refl).
Defined.

Lemma form_serialises_asking :
  ui_run degrees untranslated browser asking fresh = Some waiting /\
  inflight (outside waiting) = 1 /\
  isTyping (hooks waiting) = true.
Proof.
  split; [reflexivity|]. split; [|reflexivity].
  exact (form_serialises_submissions Z degrees untranslated browser []
           (js "en") nine asking waiting eq_refl).
Defined.

(** The call for help, submitted twice. *)
Lemma second_submit_typed :
  let w1 := page_step (FormSubmitted ten) typed in
  let stale := exec (handleSubmit (hooks typed) eleven) w1 in
  truthy (trim (input (hooks typed))) = true /\
  page_step (FormSubmitted eleven) w1 = w1 /\
  List.length (backendCalls (outside w1)) = 1 /\
  List.length (backendCalls (outside stale)) = 2 /\
  List.length (chatStore (outside stale)) = 3 /\
  inflight (outside stale) = 2.
Proof.
  destruct (second_submit_needs_a_render Z degrees untranslated browser typed
              ten eleven eq_refl) as (Hnoop & _ & Hs & Hb & Hi).
  split; [reflexivity|]. split; [exact Hnoop|]. split; [reflexivity|].
  split; [exact (f_equal (@List.length (list ApiMessage)) Hb)|].
  split; [exact (f_equal (@List.length Message) Hs)|exact Hi].
Defined.
